(** * jsLogger: the in-memory logger of [src/logger.js]

    A shallow embedding of the logger class and the properties of its
    log store, its named timers and its formatter.

    How the JavaScript is read:

    - values are undefined, functions, Date objects and JSON data
      (finite trees: no cycles, so [JSON.stringify] does not throw); a
      plain object handed to the formatter is the finite map of its
      attributes;
    - [this.timeTracking] is a JavaScript *array* used as a dictionary,
      and is modelled as one: it always owns [length], assignments to
      canonical indices grow [length], and the methods it inherits
      (among them [hasOwnProperty]) are shadowed by a property of the
      same name;
    - a method runs in the monad [M]: it reads and writes the logger and
      the system clock and either returns or throws; what was written
      before a throw stays written;
    - what the platform supplies ([JSON.stringify], [toUpperCase], the
      Date methods, the clock) is a [Host]; theorems hold for every host;
    - the implicit globals of the source ([i], [key], [logEntry],
      [logLine]) are written before they are read in every method and
      are left out; time values are not clipped to the ECMAScript range,
      which no clock reading comes near. *)

From Stdlib Require Import Ascii String ZArith Lia.
From stdpp Require Import gmap strings list fin_maps pretty.

Open Scope Z_scope.
Set Warnings "-register-all".

(** ** Values *)

(** JSON data. Numbers are the integers. *)
Inductive data : Type :=
  | DNull
  | DBool (b : bool)
  | DNum (n : Z)
  | DStr (s : string)
  | DArr (items : list data)
  | DObj (props : list (string * data)).

(** A Date object holds a time value in milliseconds since the epoch, or
    NaN ([None], an Invalid Date). *)
Inductive value : Type :=
  | VUndefined
  | VFun
  | VDate (t : option Z)
  | VData (d : data).

Definition VStr (s : string) : value := VData (DStr s).
Definition VNum (n : Z) : value := VData (DNum n).
Definition VBool (b : bool) : value := VData (DBool b).
Definition VNull : value := VData DNull.

(** [typeof v === 'string'] *)
Definition is_string (v : value) : bool :=
  match v with VData (DStr _) => true | _ => false end.

(** ToBoolean *)
Definition truthy (v : value) : bool :=
  match v with
  | VUndefined => false
  | VData DNull => false
  | VData (DBool b) => b
  | VData (DNum n) => negb (n =? 0)
  | VData (DStr s) => negb (String.eqb s "")
  | _ => true
  end.

(** ** Outcomes *)

Inductive error : Type :=
  | TypeError
  | RangeError
  | SinkError.   (* whatever a caller-supplied printFunction throws *)

Inductive outcome (A : Type) : Type :=
  | Return (a : A)
  | Throw (e : error).
Arguments Return {A} a.
Arguments Throw {A} e.

(** ** The platform *)

Definition is_ascii (s : string) : Prop :=
  Forall (λ c, (N_of_ascii c < 128)%N) (list_ascii_of_string s).

Definition upper_ascii (c : ascii) : ascii :=
  let n := N_of_ascii c in
  if ((97 <=? n) && (n <=? 122))%N then ascii_of_N (n - 32) else c.

Fixpoint ascii_upper (s : string) : string :=
  match s with
  | EmptyString => EmptyString
  | String c r => String (upper_ascii c) (ascii_upper r)
  end.

Class Host : Type := {
  (** the n-th reading of the system clock, in milliseconds *)
  clock : nat → Z;
  (** [JSON.stringify(v, null, 2)]; [None] is the result undefined *)
  JSON_stringify : value → option string;
  (** [String.prototype.toUpperCase] *)
  toUpperCase : string → string;
  (** [Date.prototype.toISOString] of a valid time value *)
  toISOString : Z → string;
  (** [getMinutes], [getTimezoneOffset] and [setMinutes] of a valid
      time value, in the local zone of the process *)
  getMinutes : Z → Z;
  getTimezoneOffset : Z → Z;
  setMinutes : Z → Z → Z;
  (** undefined and functions have no JSON text *)
  JSON_stringify_undefined : JSON_stringify VUndefined = None;
  JSON_stringify_function : JSON_stringify VFun = None;
  (** JSON data always has one; an integer is its decimal numeral *)
  JSON_stringify_data : ∀ d, is_Some (JSON_stringify (VData d));
  JSON_stringify_number : ∀ n,
    Z.abs n < 2 ^ 53 → JSON_stringify (VNum n) = Some (pretty n);
  (** on ASCII text upper-casing is the ASCII one *)
  toUpperCase_ascii : ∀ s, is_ascii s → toUpperCase s = ascii_upper s;
}.

(** ** The logger *)

(** A log entry as [add] builds it; the timestamp is [new Date()], so a
    valid time value. *)
Record LogEntry : Type := mkLogEntry {
  timestamp : Z;
  message : value;
  level : value;
}.

(** The timer array: its own properties other than [length], and
    [length]. *)
Record jsArray : Type := mkArray {
  own : gmap string Z;
  len : Z;
}.

Record jsLogger : Type := mkLogger {
  log : list LogEntry;
  timeTracking : jsArray;
  printToConsole : bool;
  printFunction : string → outcome unit;
  writeToFile : bool;
  logFilePath : value;
}.

(** The logger, the number of clock readings taken so far, and the lines
    handed to [printFunction], oldest first. *)
Record world : Type := mkWorld {
  this : jsLogger;
  reads : nat;
  emitted : list string;
}.

Definition M (A : Type) : Type := world → outcome A * world.

Definition mreturn {A} (a : A) : M A := λ w, (Return a, w).
Definition throw {A} (e : error) : M A := λ w, (Throw e, w).
Definition mbind_M {A B} (k : A → M B) (m : M A) : M B :=
  λ w, match m w with
       | (Return a, w') => k a w'
       | (Throw e, w') => (Throw e, w')
       end.

#[global] Instance M_ret : MRet M := @mreturn.
#[global] Instance M_bind : MBind M := @mbind_M.

Definition lift {A} (o : outcome A) : M A := λ w, (o, w).
Definition get_this : M jsLogger := λ w, (Return (this w), w).
Definition modify_this (f : jsLogger → jsLogger) : M unit :=
  λ w, (Return tt, mkWorld (f (this w)) (reads w) (emitted w)).
Definition emit (line : string) : M unit :=
  λ w, (Return tt, mkWorld (this w) (reads w) (emitted w ++ [line])).

Definition set_log (l : list LogEntry) (o : jsLogger) : jsLogger :=
  mkLogger l (timeTracking o) (printToConsole o) (printFunction o)
           (writeToFile o) (logFilePath o).
Definition set_timeTracking (a : jsArray) (o : jsLogger) : jsLogger :=
  mkLogger (log o) a (printToConsole o) (printFunction o)
           (writeToFile o) (logFilePath o).

(** *** Numbers of the timers *)

(** What reading a property of the timer array gives: one of the numbers
    it owns, or something else (undefined, or what the prototype chain
    holds under that name). *)
Inductive slot : Type :=
  | SNum (n : Z)
  | SOther.

(** Elapsed times are decimal fractions with three places; they are kept
    in thousandths, [Milli 3006] being 3.006. *)
Inductive number : Type :=
  | Milli (thousandths : Z)
  | NaN.

(** [end - start], with [end] an integer *)
Definition minus_slot (end_ : Z) (start : slot) : number :=
  match start with
  | SNum s => Milli ((end_ - s) * 1000)
  | SOther => NaN
  end.

(** [parseFloat(x) / 1000.0] of an integer [x] *)
Definition div_1000 (x : number) : number :=
  match x with
  | Milli m => Milli (m / 1000)
  | NaN => NaN
  end.

(** The fraction digits of [0 <= f < 1000] thousandths, without the
    trailing zeros. *)
Definition fraction_digits (f : Z) : string :=
  if f mod 10 =? 0 then
    if f mod 100 =? 0 then pretty (f / 100)
    else pretty (f / 100) +:+ pretty (f / 10 mod 10)
  else pretty (f / 100) +:+ pretty (f / 10 mod 10) +:+ pretty (f mod 10).

(** Number-to-string conversion, as in string concatenation: the
    shortest numeral that reads back as the same double, which for a
    fraction in thousandths of at most 15 significant digits is its
    decimal expansion without trailing zeros. *)
Definition number_to_string (x : number) : string :=
  match x with
  | NaN => "NaN"
  | Milli m =>
      let a := Z.abs m in
      (if m <? 0 then "-" else "") +:+ pretty (a / 1000)
        +:+ (if a mod 1000 =? 0 then "" else "." +:+ fraction_digits (a mod 1000))
  end.

(** *** Array indices *)

Definition digit_of (c : ascii) : option Z :=
  let n := Z.of_N (N_of_ascii c) in
  if (48 <=? n) && (n <=? 57) then Some (n - 48) else None.

Fixpoint parse_digits (acc : Z) (s : string) : option Z :=
  match s with
  | EmptyString => Some acc
  | String c r =>
      match digit_of c with
      | Some d => parse_digits (10 * acc + d) r
      | None => None
      end
  end.

(** The index a property name denotes: a decimal numeral without leading
    zeros, below 2^32 - 1. *)
Definition array_index (name : string) : option Z :=
  match name with
  | EmptyString => None
  | String "0" (String _ _) => None
  | _ =>
      match parse_digits 0 name with
      | Some n => if n <? 2 ^ 32 - 1 then Some n else None
      | None => None
      end
  end.

(** Whether a property outlives the assignment [length = v]: elements
    at [v] and beyond are deleted. *)
Definition survives (v : Z) (name : string) : bool :=
  match array_index name with
  | Some i => i <? v
  | None => true
  end.

Definition newline : string := String "010"%char EmptyString.

(** [str.slice(0, -1)] *)
Fixpoint slice_0_m1 (s : string) : string :=
  match s with
  | EmptyString => EmptyString
  | String c EmptyString => EmptyString
  | String c r => String c (slice_0_m1 r)
  end.

Section Logger.
Context `{H : Host}.

(** [Date.now()] and the time value of [new Date()] *)
Definition now : M Z :=
  λ w, (Return (clock (reads w)), mkWorld (this w) (S (reads w)) (emitted w)).

(** *** jsLogger.dateToString *)

Definition dateToString (date useCurrentTimezone : value) : M string :=
  date ← match date with
          | VUndefined => t ← now; mret (VDate (Some t))
          | _ => mret date
          end;
  let useCurrentTimezone :=
    match useCurrentTimezone with
    | VUndefined => true
    | _ => truthy useCurrentTimezone
    end in
  match date with
  | VUndefined | VData DNull =>
      (* reading a property of null *)
      throw TypeError
  | VDate None =>
      (* the copy is invalid too, setMinutes keeps it so, and
         toISOString rejects it *)
      throw RangeError
  | VDate (Some t) =>
      let dateCopy :=
        if useCurrentTimezone
        then setMinutes t (getMinutes t - getTimezoneOffset t)
        else t in
      mret (slice_0_m1 (toISOString dateCopy))
  | _ =>
      (* typeof date.setMinutes is not 'function' *)
      mret ""
  end.

(** *** jsLogger.prototype.formatLogEntry *)

Definition of_JSON (o : option string) : value :=
  match o with Some s => VStr s | None => VUndefined end.

(** One round of the loop over the keys of the entry. *)
Definition stringified (key : string) (v : value) : value :=
  if negb (is_string v) && negb (bool_decide (key = "timestamp"))
  then of_JSON (JSON_stringify v)
  else v.

(** String concatenation with an attribute of the copy, which by then is
    a string or undefined. *)
Definition concat_operand (v : value) : string :=
  match v with VData (DStr s) => s | _ => "undefined" end.

Definition formatLogEntry (logEntry : gmap string value) : M string :=
  if bool_decide (is_Some (logEntry !! "timestamp"))
     && bool_decide (is_Some (logEntry !! "message"))
     && bool_decide (is_Some (logEntry !! "level"))
  then
    let logEntryCopy : gmap string value :=
      map_imap (λ key v, Some (stringified key v)) logEntry in
    d ← dateToString (default VUndefined (logEntryCopy !! "timestamp")) (VBool true);
    l ← match default VUndefined (logEntryCopy !! "level") with
         | VData (DStr s) => mret (toUpperCase s)
         | _ => throw TypeError   (* no toUpperCase to call *)
         end;
    mret (d +:+ " " +:+ "[" +:+ l +:+ "] : "
            +:+ concat_operand (default VUndefined (logEntryCopy !! "message")))
  else mret "".

(** *** jsLogger.prototype.add *)

(** The object literal built by [add]. *)
Definition entry_object (e : LogEntry) : gmap string value :=
  <["timestamp" := VDate (Some (timestamp e))]>
    (<["message" := message e]> (<["level" := level e]> ∅)).

Definition add (message level : value) : M LogEntry :=
  let level := match level with VUndefined => VStr "debug" | _ => level end in
  t ← now;
  let logEntry := mkLogEntry t message level in
  modify_this (λ o, set_log (log o ++ [logEntry]) o);;
  o ← get_this;
  (if writeToFile o || printToConsole o then
     outputLine ← formatLogEntry (entry_object logEntry);
     if printToConsole o then
       o ← get_this;
       emit outputLine;;
       lift (printFunction o outputLine)
     else mret tt
   else mret tt);;
  mret logEntry.

Definition info (message : value) : M LogEntry := add message (VStr "info").
Definition debug (message : value) : M LogEntry := add message (VStr "debug").
Definition warning (message : value) : M LogEntry := add message (VStr "warning").
Definition error_ (message : value) : M LogEntry := add message (VStr "error").

(** *** The timer array *)

(** [this.timeTracking.hasOwnProperty(name)]: the method is the
    inherited one unless a timer named hasOwnProperty shadows it with a
    number, which cannot be called. *)
Definition hasOwnProperty (a : jsArray) (name : string) : outcome bool :=
  match own a !! "hasOwnProperty" with
  | Some _ => Throw TypeError
  | None =>
      Return (bool_decide (name = "length") || bool_decide (is_Some (own a !! name)))
  end.

(** [this.timeTracking[name] = v] *)
Definition array_set (a : jsArray) (name : string) (v : Z) : outcome jsArray :=
  if bool_decide (name = "length") then
    if bool_decide (0 ≤ v < 2 ^ 32)
    then Return (mkArray
                   (filter (λ kv : string * Z, survives v kv.1 = true) (own a)) v)
    else Throw RangeError
  else if bool_decide (name = "__proto__") then
    (* the inherited setter ignores a number *)
    Return a
  else
    Return (mkArray (<[name := v]> (own a))
                    (match array_index name with
                     | Some i => Z.max (len a) (i + 1)
                     | None => len a
                     end)).

(** [this.timeTracking[name]] *)
Definition array_get (a : jsArray) (name : string) : slot :=
  if bool_decide (name = "length") then SNum (len a)
  else match own a !! name with
       | Some v => SNum v
       | None => SOther
       end.

(** [delete this.timeTracking[name]]; [length] cannot be deleted and
    outside strict mode the attempt is silent. *)
Definition array_delete (a : jsArray) (name : string) : jsArray :=
  if bool_decide (name = "length") then a
  else mkArray (delete name (own a)) (len a).

(** *** jsLogger.prototype.time *)

(** [None] is the result false. *)
Definition time (name : string) : M (option slot) :=
  o ← get_this;
  has ← lift (hasOwnProperty (timeTracking o) name);
  if negb has then
    t ← now;
    o ← get_this;
    a ← lift (array_set (timeTracking o) name t);
    modify_this (set_timeTracking a);;
    o ← get_this;
    mret (Some (array_get (timeTracking o) name))
  else mret None.

(** *** jsLogger.prototype.timeEnd *)

(** [None] is the result false. *)
Definition timeEnd (name : string) : M (option number) :=
  o ← get_this;
  has ← lift (hasOwnProperty (timeTracking o) name);
  if (has : bool) then
    o ← get_this;
    let start := array_get (timeTracking o) name in
    end_ ← now;
    let elapsedTime := div_1000 (minus_slot end_ start) in
    modify_this (λ o, set_timeTracking (array_delete (timeTracking o) name) o);;
    add (VStr ("'" +:+ name +:+ "' took " +:+ number_to_string elapsedTime
                   +:+ " seconds")) VUndefined;;
    mret (Some elapsedTime)
  else mret None.

(** *** jsLogger.prototype.dumpToString *)

Fixpoint dump_loop (entries : list LogEntry) (output : string) : M string :=
  match entries with
  | [] => mret output
  | logEntry :: rest =>
      logLine ← formatLogEntry (entry_object logEntry);
      dump_loop rest (output +:+ logLine +:+ newline)
  end.

Definition dumpToString : M string :=
  o ← get_this;
  dump_loop (log o) "".

(** *** The constructor *)

Definition jsLogger_new (printToConsole : value)
    (printFunction : option (string → outcome unit))
    (writeToFile logFilePath : value) : M unit :=
  let printToConsole :=
    match printToConsole with VData (DBool b) => b | _ => true end in
  let printFunction :=
    match printFunction with Some f => f | None => λ _, Return tt end in
  let writeToFile :=
    match writeToFile with VData (DBool b) => b | _ => false end in
  logFilePath ← match logFilePath with
                 | VUndefined =>
                     t ← now;
                     s ← dateToString (VDate (Some t)) VUndefined;
                     mret (VStr (s +:+ ".log"))
                 | _ => mret logFilePath
                 end;
  modify_this (λ _, mkLogger [] (mkArray ∅ 0) printToConsole printFunction
                             writeToFile logFilePath).

End Logger.

(** [new jsLogger(...)], evaluated when the clock has been read [n]
    times: the constructor runs on an object that has no field yet. *)
Definition blank : jsLogger :=
  mkLogger [] (mkArray ∅ 0) false (λ _, Return tt) false VUndefined.

Definition fresh `{Host} (printToConsole : value)
    (printFunction : option (string → outcome unit))
    (writeToFile logFilePath : value) (n : nat) : world :=
  (jsLogger_new printToConsole printFunction writeToFile logFilePath
                (mkWorld blank n [])).2.

(** ** A reference host

    A host to evaluate the logger on: the zone is fixed at UTC+02:00, the
    clock starts at 2018-05-01T10:06:07.050Z and advances by 3006 ms per
    reading, JSON text is printed with two spaces of indentation. *)

Module Reference.

Definition two_digits (n : Z) : string :=
  pretty (n / 10 mod 10) +:+ pretty (n mod 10).
Definition three_digits (n : Z) : string :=
  pretty (n / 100 mod 10) +:+ two_digits n.
Definition four_digits (n : Z) : string :=
  pretty (n / 1000 mod 10) +:+ three_digits n.
Definition six_digits (n : Z) : string :=
  two_digits (n / 10000) +:+ four_digits n.

(** Year, month and day of a day number counted from 1970-01-01. *)
Definition civil_from_days (z : Z) : Z * Z * Z :=
  let z := z + 719468 in
  let era := z / 146097 in
  let doe := z - era * 146097 in
  let yoe := (doe - doe / 1460 + doe / 36524 - doe / 146096) / 365 in
  let doy := doe - (365 * yoe + yoe / 4 - yoe / 100) in
  let mp := (5 * doy + 2) / 153 in
  let d := doy - (153 * mp + 2) / 5 + 1 in
  let m := if mp <? 10 then mp + 3 else mp - 9 in
  (if m <=? 2 then yoe + era * 400 + 1 else yoe + era * 400, m, d).

Definition toISOString (t : Z) : string :=
  let '(y, m, d) := civil_from_days (t / 86400000) in
  let ms := t mod 86400000 in
  (if (0 <=? y) && (y <=? 9999) then four_digits y
   else (if y <? 0 then "-" else "+") +:+ six_digits (Z.abs y))
    +:+ "-" +:+ two_digits m +:+ "-" +:+ two_digits d
    +:+ "T" +:+ two_digits (ms / 3600000)
    +:+ ":" +:+ two_digits (ms / 60000 mod 60)
    +:+ ":" +:+ two_digits (ms / 1000 mod 60)
    +:+ "." +:+ three_digits (ms mod 1000) +:+ "Z".

Definition getTimezoneOffset (t : Z) : Z := -120.
Definition getMinutes (t : Z) : Z := (t - getTimezoneOffset t * 60000) / 60000 mod 60.
Definition setMinutes (t m : Z) : Z := t + (m - getMinutes t) * 60000.

Definition hex_digit (n : N) : ascii :=
  ascii_of_N (if (n <? 10)%N then 48 + n else 87 + n).

Definition escape_char (c : ascii) : string :=
  let n := N_of_ascii c in
  let bs := String "092"%char EmptyString in
  if (n =? 34)%N then bs +:+ String c EmptyString
  else if (n =? 92)%N then bs +:+ bs
  else if (n =? 8)%N then bs +:+ "b"
  else if (n =? 9)%N then bs +:+ "t"
  else if (n =? 10)%N then bs +:+ "n"
  else if (n =? 12)%N then bs +:+ "f"
  else if (n =? 13)%N then bs +:+ "r"
  else if (n <? 32)%N then
    bs +:+ "u00" +:+ String (hex_digit (n / 16)) (String (hex_digit (n mod 16)) EmptyString)
  else String c EmptyString.

Fixpoint escape (s : string) : string :=
  match s with
  | EmptyString => EmptyString
  | String c r => escape_char c +:+ escape r
  end.

Definition quote (s : string) : string :=
  String "034"%char (escape s) +:+ String "034"%char EmptyString.

Fixpoint join (sep : string) (l : list string) : string :=
  match l with
  | [] => ""
  | [x] => x
  | x :: r => x +:+ sep +:+ join sep r
  end.

Definition bracket (opening closing indent : string) (members : list string) : string :=
  match members with
  | [] => opening +:+ closing
  | _ => opening +:+ newline +:+ indent +:+ "  "
           +:+ join ("," +:+ newline +:+ indent +:+ "  ") members
           +:+ newline +:+ indent +:+ closing
  end.

Fixpoint stringify_data (indent : string) (d : data) {struct d} : string :=
  match d with
  | DNull => "null"
  | DBool b => if b then "true" else "false"
  | DNum n => pretty n
  | DStr s => quote s
  | DArr items =>
      bracket "[" "]" indent (List.map (stringify_data (indent +:+ "  ")) items)
  | DObj props =>
      bracket "{" "}" indent
        (List.map (λ kv : string * data,
                     quote kv.1 +:+ ": " +:+ stringify_data (indent +:+ "  ") kv.2)
                  props)
  end.

Definition JSON_stringify (v : value) : option string :=
  match v with
  | VUndefined | VFun => None
  | VDate (Some t) => Some (quote (toISOString t))
  | VDate None => Some "null"
  | VData d => Some (stringify_data "" d)
  end.

Definition clock (n : nat) : Z := 1525169167050 + 3006 * Z.of_nat n.

#[export] Instance host : Host.
Proof.
  refine (Build_Host clock JSON_stringify ascii_upper toISOString
                     getMinutes getTimezoneOffset setMinutes _ _ _ _ _).
  - reflexivity.
  - reflexivity.
  - intros d. eexists. reflexivity.
  - intros n _. reflexivity.
  - intros s _. reflexivity.
Defined.

End Reference.

(** ** Statement helpers *)

(** The four leveled calls. *)
Inductive call : Type :=
  | Info (message : value)
  | Debug (message : value)
  | Warning (message : value)
  | Error (message : value).

Definition call_message (c : call) : value :=
  match c with Info m | Debug m | Warning m | Error m => m end.

Definition call_level (c : call) : string :=
  match c with
  | Info _ => "info"
  | Debug _ => "debug"
  | Warning _ => "warning"
  | Error _ => "error"
  end.

Definition invoke `{Host} (c : call) : M LogEntry :=
  match c with
  | Info m => info m
  | Debug m => debug m
  | Warning m => warning m
  | Error m => error_ m
  end.

(** The calls one after the other, with what each returned. *)
Fixpoint invoke_all `{Host} (cs : list call) : M (list LogEntry) :=
  match cs with
  | [] => mret []
  | c :: rest =>
      e ← invoke c;
      es ← invoke_all rest;
      mret (e :: es)
  end.

(** The text a message contributes to its line: itself when it is a
    string, else its JSON text, else the word undefined. *)
Definition message_text `{Host} (m : value) : string :=
  match m with
  | VData (DStr s) => s
  | _ => match JSON_stringify m with
         | Some s => s
         | None => "undefined"
         end
  end.

(** What [dateToString] prints for a valid time value in local time. *)
Definition local_rendering `{Host} (t : Z) : string :=
  slice_0_m1 (toISOString (setMinutes t (getMinutes t - getTimezoneOffset t))).

(** Each line followed by a newline, all concatenated; the first
    failure, if any, is the result. *)
Fixpoint cat_lines (lines : list (outcome string)) : outcome string :=
  match lines with
  | [] => Return ""
  | Throw e :: _ => Throw e
  | Return s :: rest =>
      match cat_lines rest with
      | Return t => Return (s +:+ newline +:+ t)
      | Throw e => Throw e
      end
  end.

(** [new jsLogger()] *)
Definition default_logger `{Host} (n : nat) : world :=
  fresh VUndefined None VUndefined VUndefined n.

(** The sink is no obstacle: when lines are printed, [printFunction]
    returns. *)
Definition quiet (o : jsLogger) : Prop :=
  printToConsole o = true → ∀ line, printFunction o line = Return tt.

(** The entry that [timeEnd] logs. *)
Definition took (name : string) (elapsed : number) : value :=
  VStr ("'" +:+ name +:+ "' took " +:+ number_to_string elapsed +:+ " seconds").

(** The time values a Date can hold: 100 million days either side of
    the epoch. The model does not clip; statements about dates that a
    caller supplies say where they need the range. *)
Definition in_time_range (t : Z) : Prop :=
  -8640000000000000 ≤ t ≤ 8640000000000000.

(** *** jsLogger.prototype.dumpToFile *)

(** The body resolves the path and stops there; the result is
    undefined. *)
Definition dumpToFile (filePath : value) : M unit :=
  o ← get_this;
  let filePath :=
    match filePath with VUndefined => logFilePath o | _ => filePath end in
  mret tt.

(** ** Calls from outside *)

(** One call of a method of the logger, or of the static formatter of
    dates. *)
Inductive method : Type :=
  | CallAdd (message level : value)
  | CallLeveled (c : call)
  | CallTime (name : string)
  | CallTimeEnd (name : string)
  | CallFormatLogEntry (logEntry : gmap string value)
  | CallDumpToString
  | CallDumpToFile (filePath : value)
  | CallDateToString (date useCurrentTimezone : value).

(** The world a call leaves behind, whether it returned or threw. *)
Definition after `{Host} (m : method) (w : world) : world :=
  match m with
  | CallAdd message level => (add message level w).2
  | CallLeveled c => (invoke c w).2
  | CallTime name => (time name w).2
  | CallTimeEnd name => (timeEnd name w).2
  | CallFormatLogEntry logEntry => (formatLogEntry logEntry w).2
  | CallDumpToString => (dumpToString w).2
  | CallDumpToFile filePath => (dumpToFile filePath w).2
  | CallDateToString date useCurrentTimezone =>
      (dateToString date useCurrentTimezone w).2
  end.

(** The world after a run of calls, the caller catching what is
    thrown. *)
Definition after_all `{Host} (ms : list method) (w : world) : world :=
  foldl (λ w m, after m w) w ms.

(** The level that [add] stores. *)
Definition stored_level (level : value) : value :=
  match level with VUndefined => VStr "debug" | _ => level end.

(** The text of a level between the brackets, before upper-casing: the
    level itself when it is a string, else its JSON text if it has
    one. *)
Definition level_text `{Host} (level : value) : option string :=
  match level with
  | VData (DStr s) => Some s
  | _ => JSON_stringify level
  end.

(** The line of a stored entry, or the failure of formatting it. *)
Definition rendered `{Host} (e : LogEntry) : outcome string :=
  match level_text (level e) with
  | Some s =>
      Return (local_rendering (timestamp e) +:+ " [" +:+ toUpperCase s +:+ "] : "
                +:+ message_text (message e))
  | None => Throw TypeError
  end.



(** The world [add] works in once the clock is read and the entry
    pushed. *)
Definition pushed (e : LogEntry) (w : world) : world :=
  mkWorld (set_log (log (this w) ++ [e]) (this w)) (S (reads w)) (emitted w).

(** The world [timeEnd] hands to [add]: the clock read, the timer
    deleted. *)
Definition stopped (name : string) (w : world) : world :=
  mkWorld (set_timeTracking (array_delete (timeTracking (this w)) name) (this w))
          (S (reads w)) (emitted w).


(** ** Sample inputs, on the reference host *)

Module Sample.

(** 2018-05-01T10:06:07.050Z *)
Definition T : Z := 1525169167050.

(** [new jsLogger()] at the first clock reading *)
Definition logger : world := default_logger (H := Reference.host) 0.


(** [{timestamp: new Date(T), message: "m"}] *)
Definition without_level : gmap string value :=
  <["timestamp" := VDate (Some T)]> (<["message" := VStr "m"]> ∅).



Definition calls : list call :=
  [Info (VStr "program started"); Debug (VNum 0);
   Warning (VData (DArr [DStr "x"])); Error VUndefined].




(** A logger that prints nothing: [new jsLogger(false)] *)
Definition silent : world :=
  fresh (H := Reference.host) (VBool false) None VUndefined VUndefined 0.

(** A logger with a sink of the caller's that returns *)
Definition custom_sink : world :=
  fresh (H := Reference.host) VUndefined (Some (λ _, Return tt))
        VUndefined VUndefined 0.

(** A logger whose sink throws *)
Definition broken_sink : world :=
  fresh (H := Reference.host) VUndefined (Some (λ _, Throw SinkError))
        VUndefined VUndefined 0.

(** The logger once [time("hasOwnProperty")] was called *)
Definition shadowed : world :=
  (time (H := Reference.host) "hasOwnProperty" logger).2.


Definition session : list method :=
  [CallLeveled (Info (VStr "start")); CallTime "job"; CallAdd (VNum 1) VUndefined;
   CallTime "job"; CallTimeEnd "job"; CallTimeEnd "job"; CallAdd (VStr "n") (VNum 5);
   CallDumpToString; CallDumpToFile VUndefined; CallTimeEnd "length"].

End Sample.

(** ** Properties *)

#[local] Arguments div_1000 : simpl never.
#[local] Arguments minus_slot : simpl never.
#[local] Arguments number_to_string : simpl never.

Ltac run :=
  unfold mbind, M_bind, mbind_M, mret, M_ret, mreturn, throw, lift,
         get_this, modify_this, emit in *.

Lemma append_empty_r (s : string) : s +:+ "" = s.
Proof.
  induction s as [|a s IH]; [done|].
  change (String a (s +:+ "") = String a s). by rewrite IH.
Qed.

Lemma append_associative (s t u : string) : (s +:+ t) +:+ u = s +:+ t +:+ u.
Proof.
  induction s as [|a s IH]; [done|].
  change (String a ((s +:+ t) +:+ u) = String a (s +:+ t +:+ u)).
  by rewrite IH.
Qed.

Section Formatter.
Context `{H : Host}.

Lemma stringified_timestamp v : stringified "timestamp" v = v.
Proof. unfold stringified. by rewrite andb_false_r. Qed.

Lemma stringified_string key s : stringified key (VStr s) = VStr s.
Proof. reflexivity. Qed.

Lemma stringified_other key v :
  key ≠ "timestamp" → is_string v = false →
  stringified key v = of_JSON (JSON_stringify v).
Proof.
  intros Hk Hv. unfold stringified.
  by rewrite Hv, bool_decide_eq_false_2.
Qed.

(** After the loop every attribute but the timestamp is a string or
    undefined. *)
Lemma stringified_shape key v :
  key ≠ "timestamp" →
  (∃ s, stringified key v = VStr s) ∨ stringified key v = VUndefined.
Proof.
  intros Hk. destruct (is_string v) eqn:Hv.
  - destruct v as [| | |[]]; try discriminate. left. eauto.
  - rewrite stringified_other by done.
    destruct (JSON_stringify v); [left; eauto | by right].
Qed.

Lemma copy_lookup (logEntry : gmap string value) key :
  map_imap (λ key v, Some (stringified key v)) logEntry !! key
  = stringified key <$> logEntry !! key.
Proof. rewrite map_lookup_imap. by destruct (logEntry !! key). Qed.

Lemma concat_operand_stringified v :
  concat_operand (stringified "message" v) = message_text v.
Proof.
  destruct (is_string v) eqn:Hv.
  - by destruct v as [| | |[]].
  - rewrite stringified_other by done.
    unfold message_text.
    destruct v as [| | |[]]; try discriminate;
      by destruct (JSON_stringify _).
Qed.

(** The shape of a formatted line, whatever the level is. *)
Lemma formatLogEntry_line (logEntry : gmap string value) ts lvl msg w :
  logEntry !! "timestamp" = Some ts →
  logEntry !! "level" = Some lvl →
  logEntry !! "message" = Some msg →
  formatLogEntry logEntry w =
    match dateToString ts (VBool true) w with
    | (Return d, w') =>
        match stringified "level" lvl with
        | VData (DStr s) =>
            (Return (d +:+ " [" +:+ toUpperCase s +:+ "] : " +:+ message_text msg), w')
        | _ => (Throw TypeError, w')
        end
    | (Throw e, w') => (Throw e, w')
    end.
Proof.
  intros Hts Hl Hm. unfold formatLogEntry.
  rewrite Hts, Hl, Hm, !copy_lookup, Hts, Hl, Hm. simpl.
  rewrite stringified_timestamp, concat_operand_stringified.
  run. destruct (dateToString ts (VBool true) w) as [[d|e] w']; [|done].
  by destruct (stringified "level" lvl) as [| | |[]].
Qed.

Lemma dateToString_valid t use w :
  use ≠ VUndefined → truthy use = true →
  dateToString (VDate (Some t)) use w = (Return (local_rendering t), w).
Proof.
  intros Hu Ht. unfold dateToString. run. simpl.
  destruct use; try done; by rewrite Ht.
Qed.

(** A stored entry whose level has text [s]. *)
Lemma formatLogEntry_entry e s w :
  stringified "level" (level e) = VStr s →
  formatLogEntry (entry_object e) w =
    (Return (local_rendering (timestamp e) +:+ " [" +:+ toUpperCase s +:+ "] : "
               +:+ message_text (message e)), w).
Proof.
  intros Hs.
  rewrite (formatLogEntry_line _ (VDate (Some (timestamp e))) (level e) (message e))
    by (unfold entry_object; by simplify_map_eq).
  rewrite dateToString_valid by done. by rewrite Hs.
Qed.

(** Formatting a stored entry neither reads the clock nor writes
    anything. *)
Lemma formatLogEntry_entry_pure e w :
  (formatLogEntry (entry_object e) w).2 = w.
Proof.
  rewrite (formatLogEntry_line _ (VDate (Some (timestamp e))) (level e) (message e))
    by (unfold entry_object; by simplify_map_eq).
  rewrite dateToString_valid by done.
  by destruct (stringified "level" (level e)) as [| | |[]].
Qed.

End Formatter.

Section FormatterClaims.
Context `{H : Host}.

(** C7. An object lacking one of timestamp, level and message is
    rendered as the empty string, and formatting it does not fail. *)
Theorem formatLogEntry_incomplete (logEntry : gmap string value) w :
  logEntry !! "timestamp" = None ∨ logEntry !! "level" = None
    ∨ logEntry !! "message" = None →
  formatLogEntry logEntry w = (Return "", w).
Proof.
  intros Hmiss. unfold formatLogEntry.
  destruct Hmiss as [Hn|[Hn|Hn]]; rewrite Hn;
    rewrite (bool_decide_eq_false_2 (is_Some None)) by (by intros [? ?]);
    by rewrite ?andb_false_r.
Qed.


(** The level 5 is printed as [[5]], on every host. *)
Lemma formatLogEntry_level_5 (logEntry : gmap string value) ts msg d w w' :
  logEntry !! "timestamp" = Some ts →
  logEntry !! "level" = Some (VNum 5) →
  logEntry !! "message" = Some msg →
  dateToString ts (VBool true) w = (Return d, w') →
  formatLogEntry logEntry w
    = (Return (d +:+ " [5] : " +:+ message_text msg), w').
Proof.
  intros Hts Hl Hm Hd.
  rewrite (formatLogEntry_line _ ts (VNum 5) msg) by done.
  rewrite Hd, stringified_other by done.
  rewrite JSON_stringify_number by (simpl; lia). simpl.
  rewrite toUpperCase_ascii; [done|].
  repeat constructor.
Qed.

(** A level without JSON text leaves nothing to upper-case. *)
Lemma formatLogEntry_level_without_text (logEntry : gmap string value)
    ts lvl msg d w w' :
  logEntry !! "timestamp" = Some ts →
  logEntry !! "level" = Some lvl →
  logEntry !! "message" = Some msg →
  is_string lvl = false →
  JSON_stringify lvl = None →
  dateToString ts (VBool true) w = (Return d, w') →
  formatLogEntry logEntry w = (Throw TypeError, w').
Proof.
  intros Hts Hl Hm Hns Hs Hd.
  rewrite (formatLogEntry_line _ ts lvl msg) by done.
  by rewrite Hd, stringified_other, Hs.
Qed.

(** C9, as amended. For an input that is neither undefined, null nor a
    Date object, [dateToString] returns the empty string: it does not
    fail and does not read the clock. *)
Theorem dateToString_not_a_date date useCurrentTimezone w :
  date ≠ VUndefined → date ≠ VNull → (∀ t, date ≠ VDate t) →
  dateToString date useCurrentTimezone w = (Return "", w).
Proof.
  intros Hu Hn Hd. unfold dateToString. run.
  destruct date as [| |t|[]]; try done. by destruct (Hd t).
Qed.

(** An Invalid Date is rejected by [toISOString]. *)
Lemma dateToString_invalid_date useCurrentTimezone w :
  dateToString (VDate None) useCurrentTimezone w = (Throw RangeError, w).
Proof. reflexivity. Qed.

(** null has no property to read. *)
Lemma dateToString_null useCurrentTimezone w :
  dateToString VNull useCurrentTimezone w = (Throw TypeError, w).
Proof. reflexivity. Qed.

(** undefined stands for the current time. *)
Lemma dateToString_undefined w :
  dateToString VUndefined VUndefined w
  = (Return (local_rendering (clock (reads w))),
     mkWorld (this w) (S (reads w)) (emitted w)).
Proof. reflexivity. Qed.

(** The loop of [dumpToString], from any partial output. *)
Lemma dump_loop_cat entries output w :
  dump_loop entries output w =
    (match cat_lines (map (λ e, (formatLogEntry (entry_object e) w).1) entries) with
     | Return t => Return (output +:+ t)
     | Throw e => Throw e
     end, w).
Proof.
  revert output. induction entries as [|e entries IH]; intros output; simpl.
  - run. by rewrite append_empty_r.
  - run. pose proof (formatLogEntry_entry_pure e w) as Hpure.
    destruct (formatLogEntry (entry_object e) w) as [[line|err] w1];
      simpl in Hpure; subst w1; simpl; [|done].
    rewrite IH.
    destruct (cat_lines _) as [t|err]; [|done].
    by rewrite !append_associative.
Qed.

Lemma dumpToString_cat w :
  dumpToString w
    = (cat_lines (map (λ e, (formatLogEntry (entry_object e) w).1) (log (this w))), w).
Proof.
  unfold dumpToString. run. rewrite dump_loop_cat.
  by destruct (cat_lines _).
Qed.

(** C8. [dumpToString] returns the lines of the stored entries, in the
    order they were added, each followed by a newline; it leaves the
    world as it found it, so that a second call returns the same. *)
Theorem dumpToString_lines w :
  dumpToString w
    = (cat_lines (map (λ e, (formatLogEntry (entry_object e) w).1) (log (this w))), w)
  ∧ dumpToString (dumpToString w).2 = dumpToString w.
Proof.
  split; [apply dumpToString_cat|].
  assert (Hw : (dumpToString w).2 = w) by (by rewrite dumpToString_cat).
  by rewrite Hw.
Qed.

(** Three entries A, B and C that format to [a], [b] and [c]. *)
Lemma dumpToString_three A B C a b c w :
  log (this w) = [A; B; C] →
  formatLogEntry (entry_object A) w = (Return a, w) →
  formatLogEntry (entry_object B) w = (Return b, w) →
  formatLogEntry (entry_object C) w = (Return c, w) →
  dumpToString w
    = (Return (a +:+ newline +:+ b +:+ newline +:+ c +:+ newline), w).
Proof.
  intros Hlog HA HB HC.
  rewrite dumpToString_cat, Hlog. simpl.
  rewrite HA, HB, HC. simpl.
  by rewrite append_empty_r.
Qed.

End FormatterClaims.

Section Store.
Context `{H : Host}.

Lemma fresh_this pc pf wf lp n :
  ∃ path,
    this (fresh pc pf wf lp n)
    = mkLogger [] (mkArray ∅ 0)
        (match pc with VData (DBool b) => b | _ => true end)
        (match pf with Some f => f | None => λ _, Return tt end)
        (match wf with VData (DBool b) => b | _ => false end)
        path.
Proof. unfold fresh, jsLogger_new. destruct lp; run; simpl; eauto. Qed.

Lemma jsLogger_new_returns pc pf wf lp w :
  (jsLogger_new pc pf wf lp w).1 = Return tt.
Proof. unfold jsLogger_new. destruct lp; reflexivity. Qed.

Lemma default_logger_eq n :
  default_logger n
  = mkWorld (mkLogger [] (mkArray ∅ 0) true (λ _, Return tt) false
               (VStr (local_rendering (clock n) +:+ ".log")))
            (S n) [].
Proof. reflexivity. Qed.

Lemma quiet_set_log l o : quiet o → quiet (set_log l o).
Proof. done. Qed.



(** [add] appends the entry it returns; the level stored is the one
    given, or debug when none is given. *)
Lemma add_appends message lvl s w :
  let lvl' := match lvl with VUndefined => VStr "debug" | _ => lvl end in
  let e := mkLogEntry (clock (reads w)) message lvl' in
  quiet (this w) →
  stringified "level" lvl' = VStr s →
  ∃ w', add message lvl w = (Return e, w')
        ∧ this w' = set_log (log (this w) ++ [e]) (this w)
        ∧ reads w' = S (reads w).
Proof.
  intros lvl' e Hq Hs. unfold add. fold lvl'. run. simpl. fold e.
  destruct (writeToFile (this w) || printToConsole (this w)) eqn:Hp; [|eauto].
  rewrite (formatLogEntry_entry e s) by done.
  destruct (printToConsole (this w)) eqn:Hc; simpl; [|eauto].
  rewrite Hq by done. eauto.
Qed.

Lemma invoke_appends c w :
  quiet (this w) →
  ∃ w', invoke c w
          = (Return (mkLogEntry (clock (reads w)) (call_message c) (VStr (call_level c))), w')
        ∧ this w'
          = set_log (log (this w)
                       ++ [mkLogEntry (clock (reads w)) (call_message c) (VStr (call_level c))])
                    (this w)
        ∧ reads w' = S (reads w).
Proof.
  intros Hq.
  destruct c as [m|m|m|m]; simpl;
    unfold info, debug, warning, error_;
    by eapply (add_appends m (VStr _)).
Qed.

(** Any run of leveled calls on a logger whose sink returns. *)
Lemma invoke_all_appends cs w :
  quiet (this w) →
  ∃ es w', invoke_all cs w = (Return es, w')
           ∧ log (this w') = log (this w) ++ es
           ∧ Forall2 (λ c e, level e = VStr (call_level c)
                             ∧ message e = call_message c) cs es.
Proof.
  revert w. induction cs as [|c cs IH]; intros w Hq; simpl.
  - exists [], w. run. by rewrite app_nil_r.
  - destruct (invoke_appends c w Hq) as (w1 & Hc & Ht & Hr).
    destruct (IH w1) as (es & w2 & Hcs & Hlog & Hall).
    { rewrite Ht. by apply quiet_set_log. }
    eexists (_ :: es), w2. run. rewrite Hc, Hcs. split; [done|]. split.
    + rewrite Hlog, Ht. simpl. by rewrite <- app_assoc.
    + by constructor.
Qed.

(** Leveled calls on a fresh logger whose sink returns: every call
    returns, the log holds the returned entries, one per call and in
    call order, and each entry carries the level named by its method and
    the message it was given. *)
Lemma leveled_calls_fill_the_log pc pf wf lp n cs :
  (∀ f, pf = Some f → ∀ line, f line = Return tt) →
  ∃ es w', invoke_all cs (fresh pc pf wf lp n) = (Return es, w')
           ∧ log (this w') = es
           ∧ length es = length cs
           ∧ Forall2 (λ c e, level e = VStr (call_level c)
                             ∧ message e = call_message c) cs es.
Proof.
  intros Hsink.
  destruct (fresh_this pc pf wf lp n) as [path Hthis].
  destruct (invoke_all_appends cs (fresh pc pf wf lp n))
    as (es & w' & Hrun & Hlog & Hall).
  { rewrite Hthis. intros _ line. simpl. destruct pf; [eauto|done]. }
  exists es, w'. rewrite Hthis in Hlog. simpl in Hlog.
  repeat split; try done.
  symmetry. by eapply Forall2_length.
Qed.

End Store.

Section Timers.
Context `{H : Host}.

Implicit Types (name : string) (w : world).

Lemma elapsed_exact end_ start :
  div_1000 (minus_slot end_ (SNum start)) = Milli (end_ - start).
Proof. unfold div_1000, minus_slot. by rewrite Z.div_mul. Qed.

(** *** Names that collide with nothing the array has *)

(** Starting a timer under a free name stores the clock reading and
    returns it. *)
Lemma time_starts name w :
  own (timeTracking (this w)) !! "hasOwnProperty" = None →
  name ≠ "length" → name ≠ "__proto__" →
  own (timeTracking (this w)) !! name = None →
  ∃ w', time name w = (Return (Some (SNum (clock (reads w)))), w')
        ∧ own (timeTracking (this w'))
          = <[name := clock (reads w)]> (own (timeTracking (this w)))
        ∧ log (this w') = log (this w).
Proof.
  intros Hh Hl Hp Hfree. unfold time, hasOwnProperty, array_set, array_get.
  run. simpl. rewrite Hh, Hfree.
  rewrite (bool_decide_eq_false_2 (name = "length")) by done.
  rewrite (bool_decide_eq_false_2 (is_Some None)) by (by intros [? ?]).
  rewrite (bool_decide_eq_false_2 (name = "__proto__")) by done.
  simpl. rewrite lookup_insert_eq. eauto.
Qed.

(** Starting it again is refused and changes nothing. *)
Lemma time_rejects_duplicate name start w :
  own (timeTracking (this w)) !! "hasOwnProperty" = None →
  own (timeTracking (this w)) !! name = Some start →
  time name w = (Return None, w).
Proof.
  intros Hh Hact. unfold time, hasOwnProperty. run. simpl.
  rewrite Hh, Hact.
  rewrite (bool_decide_eq_true_2 (is_Some (Some start))) by eauto.
  by rewrite orb_true_r.
Qed.



(** *** Names the array has a use for *)

(** [length] counts as a running timer from the start. *)
Lemma time_length w :
  own (timeTracking (this w)) !! "hasOwnProperty" = None →
  time "length" w = (Return None, w).
Proof.
  intros Hh. unfold time, hasOwnProperty. run. simpl. by rewrite Hh.
Qed.


(** Once a timer is named hasOwnProperty the membership test itself
    fails, for every name. *)
Lemma time_shadowed name start w :
  own (timeTracking (this w)) !! "hasOwnProperty" = Some start →
  time name w = (Throw TypeError, w).
Proof.
  intros Hh. unfold time, hasOwnProperty. run. simpl. by rewrite Hh.
Qed.

Lemma timeEnd_shadowed name start w :
  own (timeTracking (this w)) !! "hasOwnProperty" = Some start →
  timeEnd name w = (Throw TypeError, w).
Proof.
  intros Hh. unfold timeEnd, hasOwnProperty. run. simpl. by rewrite Hh.
Qed.

(** C3, at the name length. On a fresh logger no timer is running, yet
    [time("length")] returns false and records nothing. *)
Theorem time_length_on_fresh_logger pc pf wf lp n :
  own (timeTracking (this (fresh pc pf wf lp n))) = ∅
  ∧ time "length" (fresh pc pf wf lp n) = (Return None, fresh pc pf wf lp n).
Proof.
  destruct (fresh_this pc pf wf lp n) as [path Hthis].
  split; [by rewrite Hthis|].
  apply time_length. by rewrite Hthis.
Qed.

(** C4, at the name length. On a fresh logger [time] was never called,
    yet [timeEnd("length")] returns a duration, the clock reading itself
    counted from the array's length 0, and logs it. *)
Theorem timeEnd_length_on_fresh_logger n :
  let elapsed := Milli (clock (S n)) in
  ∃ w', timeEnd "length" (default_logger n) = (Return (Some elapsed), w')
        ∧ log (this (default_logger n)) = []
        ∧ log (this w')
          = [mkLogEntry (clock (S (S n))) (took "length" elapsed) (VStr "debug")]
        ∧ timeTracking (this w') = timeTracking (this (default_logger n)).
Proof.
  intros elapsed. rewrite default_logger_eq.
  unfold timeEnd, hasOwnProperty, array_get, array_delete. run. simpl.
  rewrite lookup_empty. simpl.
  rewrite elapsed_exact, Z.sub_0_r. fold elapsed.
  match goal with
  | |- context [add ?m VUndefined ?w1] =>
      destruct (add_appends m VUndefined "debug" w1) as (w' & Hadd & Ht & Hr);
        [by intros _ line|done|]
  end.
  unfold took. rewrite Hadd.
  exists w'. rewrite Ht. simpl. repeat split; reflexivity.
Qed.

(** C5, at the name hasOwnProperty. The first [time("hasOwnProperty")]
    starts a timer; the second one throws instead of returning false. *)
Theorem time_hasOwnProperty_twice n :
  ∃ w1, time "hasOwnProperty" (default_logger n)
          = (Return (Some (SNum (clock (S n)))), w1)
        ∧ own (timeTracking (this w1)) !! "hasOwnProperty" = Some (clock (S n))
        ∧ time "hasOwnProperty" w1 = (Throw TypeError, w1).
Proof.
  destruct (time_starts "hasOwnProperty" (default_logger n))
    as (w1 & Hstart & Hown & _); try done.
  exists w1. rewrite default_logger_eq in Hstart, Hown. simpl in Hown.
  assert (Hh : own (timeTracking (this w1)) !! "hasOwnProperty" = Some (clock (S n)))
    by (by rewrite Hown).
  repeat split; try done. by eapply time_shadowed.
Qed.

(** C2, at the name hasOwnProperty. With that timer running,
    [timeEnd("hasOwnProperty")] throws: no duration is returned, the
    timer stays and nothing is logged. *)
Theorem timeEnd_hasOwnProperty_throws n :
  ∃ w1, time "hasOwnProperty" (default_logger n)
          = (Return (Some (SNum (clock (S n)))), w1)
        ∧ own (timeTracking (this w1)) !! "hasOwnProperty" = Some (clock (S n))
        ∧ timeEnd "hasOwnProperty" w1 = (Throw TypeError, w1).
Proof.
  destruct (time_starts "hasOwnProperty" (default_logger n))
    as (w1 & Hstart & Hown & _); try done.
  exists w1. rewrite default_logger_eq in Hstart, Hown. simpl in Hown.
  assert (Hh : own (timeTracking (this w1)) !! "hasOwnProperty" = Some (clock (S n)))
    by (by rewrite Hown).
  repeat split; try done. by eapply timeEnd_shadowed.
Qed.

End Timers.

(** ** The sample inputs *)

Section Samples.
#[local] Existing Instance Reference.host.

(** The second timer of the README: started, stopped one clock reading
    later, 3.006 seconds apart. *)
Example readme_timer :
  let '(started, w1) := time "A big loop" Sample.logger in
  let '(elapsed, w2) := timeEnd "A big loop" w1 in
  started = Return (Some (SNum 1525169170056))
  ∧ elapsed = Return (Some (Milli 3006))
  ∧ emitted w2 = ["2018-05-01T12:06:16.068 [DEBUG] : 'A big loop' took 3.006 seconds"]
  ∧ own (timeTracking (this w2)) = ∅.
Proof. vm_compute. repeat split. Qed.

Example number_to_string_samples :
  map number_to_string [Milli 3006; Milli 3000; Milli 506; Milli 50; Milli (-1500); NaN]
  = ["3.006"; "3"; "0.506"; "0.05"; "-1.5"; "NaN"].
Proof. reflexivity. Qed.

Example array_index_samples :
  map array_index ["0"; "01"; "7"; "4294967294"; "4294967295"; "length"; ""]
  = [Some 0; None; Some 7; Some 4294967294; None; None; None].
Proof. reflexivity. Qed.

(** An index grows the array's length, which [timeEnd("length")] then
    takes for a start time. *)
Example time_index_grows_length :
  len (timeTracking (this (time "7" Sample.logger).2)) = 8.
Proof. reflexivity. Qed.

(** The four sample calls, then a dump: four lines, the last one for a
    call that passed no message. *)
Example dump_after_sample_calls :
  (dumpToString (invoke_all Sample.calls Sample.logger).2).1
  = Return ("2018-05-01T12:06:10.056 [INFO] : program started" +:+ newline
            +:+ "2018-05-01T12:06:13.062 [DEBUG] : 0" +:+ newline
            +:+ "2018-05-01T12:06:16.068 [WARNING] : [" +:+ newline
            +:+ "  " +:+ Reference.quote "x" +:+ newline +:+ "]" +:+ newline
            +:+ "2018-05-01T12:06:19.074 [ERROR] : undefined" +:+ newline).
Proof. vm_compute. reflexivity. Qed.

Lemma formatLogEntry_incomplete_witness :
  Sample.without_level !! "level" = None
  ∧ formatLogEntry Sample.without_level Sample.logger = (Return "", Sample.logger).
Proof.
  split; [reflexivity|].
  apply (formatLogEntry_incomplete Sample.without_level Sample.logger).
  right. left. reflexivity.
Defined.



Lemma dateToString_not_a_date_witness :
  dateToString (VNum 5) VUndefined Sample.logger = (Return "", Sample.logger)
  ∧ dateToString (VStr "2018-05-01") VUndefined Sample.logger
    = (Return "", Sample.logger).
Proof.
  split.
  - apply (dateToString_not_a_date (VNum 5) VUndefined Sample.logger);
      [discriminate | discriminate | intros t; discriminate].
  - apply (dateToString_not_a_date (VStr "2018-05-01") VUndefined Sample.logger);
      [discriminate | discriminate | intros t; discriminate].
Defined.

(** C9 as first stated fails: an Invalid Date is not a valid point in
    time, and [dateToString] throws on it instead of returning the empty
    string. *)
Lemma dateToString_invalid_date_throws :
  dateToString (VDate None) VUndefined Sample.logger
  = (Throw RangeError, Sample.logger)
  ∧ (dateToString (VDate None) VUndefined Sample.logger).1 ≠ Return "".
Proof. split; [reflexivity | discriminate]. Qed.

End Samples.

(** ** Beyond the claims: adding entries *)

Section Adding.
Context `{H : Host}.

Implicit Types (w : world) (e : LogEntry).

Lemma stringified_level lvl : stringified "level" lvl = of_JSON (level_text lvl).
Proof.
  destruct (is_string lvl) eqn:Hs.
  - by destruct lvl as [| | |[]].
  - rewrite stringified_other by done. by destruct lvl as [| | |[]].
Qed.

Lemma formatLogEntry_rendered e w :
  formatLogEntry (entry_object e) w = (rendered e, w).
Proof.
  rewrite (formatLogEntry_line _ (VDate (Some (timestamp e))) (level e) (message e))
    by (unfold entry_object; by simplify_map_eq).
  rewrite dateToString_valid, stringified_level by done.
  unfold rendered. by destruct (level_text (level e)).
Qed.

(** [add], case by case. *)
Lemma add_unfold message lvl w :
  let e := mkLogEntry (clock (reads w)) message (stored_level lvl) in
  add message lvl w =
    if writeToFile (this w) || printToConsole (this w) then
      match rendered e with
      | Throw err => (Throw err, pushed e w)
      | Return line =>
          if printToConsole (this w) then
            (match printFunction (this w) line with
             | Return _ => Return e
             | Throw err => Throw err
             end,
             mkWorld (this (pushed e w)) (S (reads w)) (emitted w ++ [line]))
          else (Return e, pushed e w)
      end
    else (Return e, pushed e w).
Proof.
  intros e. unfold add. fold (stored_level lvl). run. simpl. fold e.
  fold (pushed e w).
  destruct (writeToFile (this w) || printToConsole (this w)); [|reflexivity].
  rewrite formatLogEntry_rendered.
  destruct (rendered e) as [line|err]; [|reflexivity].
  destruct (printToConsole (this w)); [|reflexivity].
  simpl. by destruct (printFunction (this w) line) as [[]|err].
Qed.

Lemma add_this message lvl w :
  this (add message lvl w).2
  = set_log (log (this w)
               ++ [mkLogEntry (clock (reads w)) message (stored_level lvl)])
            (this w)
  ∧ reads (add message lvl w).2 = S (reads w).
Proof.
  rewrite add_unfold.
  destruct (writeToFile (this w) || printToConsole (this w)); [|done].
  destruct (rendered _); [|done].
  by destruct (printToConsole (this w)).
Qed.

(** X1. Whatever the message, the level, the configuration and the sink,
    and whether it returns or throws, [add] leaves the log one entry
    longer: the old entries, then one with the clock reading, the
    message, and the level given (debug when none is given). It reads
    the clock once and touches neither the timers nor the
    configuration. *)
Theorem add_always_appends message lvl w :
  let w' := (add message lvl w).2 in
  log (this w')
    = log (this w) ++ [mkLogEntry (clock (reads w)) message (stored_level lvl)]
  ∧ reads w' = S (reads w)
  ∧ timeTracking (this w') = timeTracking (this w)
  ∧ printToConsole (this w') = printToConsole (this w)
  ∧ writeToFile (this w') = writeToFile (this w)
  ∧ logFilePath (this w') = logFilePath (this w).
Proof.
  intros w'. subst w'.
  destruct (add_this message lvl w) as [Ht Hr].
  rewrite Ht, Hr. by repeat split.
Qed.


(** X3. A sink that throws makes [add] throw the same, after the entry
    was stored and the line handed over: the entry stays in the log. *)
Theorem add_sink_throws message lvl s err w :
  printToConsole (this w) = true →
  level_text (stored_level lvl) = Some s →
  let e := mkLogEntry (clock (reads w)) message (stored_level lvl) in
  let line := local_rendering (clock (reads w)) +:+ " [" +:+ toUpperCase s
                +:+ "] : " +:+ message_text message in
  printFunction (this w) line = Throw err →
  (add message lvl w).1 = Throw err
  ∧ log (this (add message lvl w).2) = log (this w) ++ [e]
  ∧ emitted (add message lvl w).2 = emitted w ++ [line].
Proof.
  intros Hp Hs e line Hsink. rewrite add_unfold. fold e.
  rewrite Hp, orb_true_r. unfold rendered. simpl. rewrite Hs.
  fold line. by rewrite Hsink.
Qed.

(** X4. With both printToConsole and writeToFile off nothing is
    formatted: [add] returns the entry for every level, also one that
    could not be printed, and hands nothing to the sink. *)
Theorem add_silent message lvl w :
  printToConsole (this w) = false →
  writeToFile (this w) = false →
  add message lvl w
  = (Return (mkLogEntry (clock (reads w)) message (stored_level lvl)),
     mkWorld (set_log (log (this w)
                         ++ [mkLogEntry (clock (reads w)) message (stored_level lvl)])
                      (this w))
             (S (reads w)) (emitted w)).
Proof. intros Hp Hf. rewrite add_unfold. by rewrite Hp, Hf. Qed.

(** X5. With printToConsole or writeToFile on, a level without text (a
    function, say) makes [add] throw a TypeError; the entry was stored
    before, and the sink is not called. writeToFile alone is enough,
    though nothing is written. *)
Theorem add_level_without_text message lvl w :
  writeToFile (this w) || printToConsole (this w) = true →
  level_text (stored_level lvl) = None →
  (add message lvl w).1 = Throw TypeError
  ∧ log (this (add message lvl w).2)
    = log (this w) ++ [mkLogEntry (clock (reads w)) message (stored_level lvl)]
  ∧ emitted (add message lvl w).2 = emitted w.
Proof.
  intros Hp Hs. rewrite add_unfold, Hp. unfold rendered. simpl.
  by rewrite Hs.
Qed.


End Adding.

(** ** Beyond the claims: timers *)

Section Timing.
Context `{H : Host}.

Implicit Types (name : string) (w : world).

Lemma set_timeTracking_id o : set_timeTracking (timeTracking o) o = o.
Proof. by destruct o. Qed.


(** [timeEnd] on a running timer: the rest is [add]. *)
Lemma timeEnd_unfold_running name start w :
  own (timeTracking (this w)) !! "hasOwnProperty" = None →
  name ≠ "length" →
  own (timeTracking (this w)) !! name = Some start →
  let elapsed := Milli (clock (reads w) - start) in
  timeEnd name w
  = (match (add (took name elapsed) VUndefined (stopped name w)).1 with
     | Return _ => Return (Some elapsed)
     | Throw err => Throw err
     end,
     (add (took name elapsed) VUndefined (stopped name w)).2).
Proof.
  intros Hh Hl Hact elapsed.
  unfold timeEnd, hasOwnProperty, array_get. run. simpl.
  rewrite Hh, Hact.
  rewrite (bool_decide_eq_false_2 (name = "length")) by done.
  rewrite (bool_decide_eq_true_2 (is_Some (Some start))) by eauto.
  simpl. rewrite Hact, elapsed_exact. fold elapsed. fold (stopped name w).
  unfold took.
  by destruct (add _ VUndefined (stopped name w)) as [[e|err] w'].
Qed.


(** X8. [time] touches its own timer only: whatever the name and
    whatever the outcome, the log, the lines handed to the sink and
    every other timer are as before. *)
Theorem time_touches_its_timer_only name w :
  log (this (time name w).2) = log (this w)
  ∧ emitted (time name w).2 = emitted w
  ∧ ∀ other, other ≠ name →
      own (timeTracking (this (time name w).2)) !! other
      = own (timeTracking (this w)) !! other.
Proof.
  unfold time, hasOwnProperty, array_set. run. simpl.
  destruct (own (timeTracking (this w)) !! "hasOwnProperty"); [done|]. simpl.
  destruct (bool_decide (name = "length")) eqn:Hl; simpl; [done|].
  destruct (bool_decide (is_Some (own (timeTracking (this w)) !! name)));
    simpl; [done|].
  destruct (bool_decide (name = "__proto__")); simpl; [done|].
  repeat split; try done.
  intros other Hne. by rewrite lookup_insert_ne.
Qed.

(** X9. [timeEnd] touches its own timer only, and logs at most one
    entry, at level debug: whatever the name and whatever the outcome,
    every other timer is as before, and the log is as before or one
    debug entry longer. *)
Theorem timeEnd_touches_its_timer_only name w :
  (∀ other, other ≠ name →
     own (timeTracking (this (timeEnd name w).2)) !! other
     = own (timeTracking (this w)) !! other)
  ∧ (log (this (timeEnd name w).2) = log (this w)
     ∨ ∃ e, log (this (timeEnd name w).2) = log (this w) ++ [e]
            ∧ level e = VStr "debug").
Proof.
  unfold timeEnd, hasOwnProperty. run. simpl.
  destruct (own (timeTracking (this w)) !! "hasOwnProperty"); [by split; [|left]|].
  simpl.
  destruct (bool_decide (name = "length") || bool_decide (is_Some _)) eqn:Hhas;
    simpl; [|by split; [|left]].
  match goal with
  | |- context [add ?m VUndefined ?w1] =>
      destruct (add_this m VUndefined w1) as [Ht _];
      destruct (add m VUndefined w1) as [[e|err] w'] eqn:Hadd
  end; simpl in *; rewrite Ht; simpl.
  all: split; [|right; eexists; split; reflexivity].
  all: intros other Hne; unfold array_delete;
    destruct (bool_decide (name = "length")); simpl; [done|];
    by rewrite lookup_delete_ne.
Qed.

(** X10. When the sink throws, [timeEnd] throws the same, and the
    measurement is gone: the timer was deleted and the entry stored
    before the line was handed over, and no duration is returned. *)
Theorem timeEnd_sink_throws name start err w :
  own (timeTracking (this w)) !! "hasOwnProperty" = None →
  name ≠ "length" →
  own (timeTracking (this w)) !! name = Some start →
  printToConsole (this w) = true →
  (∀ line, printFunction (this w) line = Throw err) →
  let elapsed := Milli (clock (reads w) - start) in
  (timeEnd name w).1 = Throw err
  ∧ own (timeTracking (this (timeEnd name w).2)) !! name = None
  ∧ log (this (timeEnd name w).2)
    = log (this w)
        ++ [mkLogEntry (clock (S (reads w))) (took name elapsed) (VStr "debug")].
Proof.
  intros Hh Hl Hact Hp Hsink elapsed.
  rewrite (timeEnd_unfold_running name start) by done. fold elapsed. simpl.
  destruct (add_this (took name elapsed) VUndefined (stopped name w)) as [Ht _].
  rewrite Ht. rewrite add_unfold. simpl. rewrite Hp, orb_true_r.
  unfold rendered. simpl. rewrite Hsink. simpl.
  unfold array_delete.
  rewrite (bool_decide_eq_false_2 (name = "length")) by done. simpl.
  by rewrite lookup_delete_eq.
Qed.


End Timing.

(** ** Beyond the claims: the formatters *)

Section Formatting.
Context `{H : Host}.

Implicit Types (w : world) (logEntry : gmap string value).

Lemma dateToString_world date use w :
  this (dateToString date use w).2 = this w
  ∧ emitted (dateToString date use w).2 = emitted w
  ∧ reads (dateToString date use w).2
    = match date with VUndefined => S (reads w) | _ => reads w end.
Proof.
  unfold dateToString. run.
  destruct date as [| |[t|]|[]]; simpl; done.
Qed.

Lemma formatLogEntry_world logEntry w :
  this (formatLogEntry logEntry w).2 = this w
  ∧ emitted (formatLogEntry logEntry w).2 = emitted w.
Proof.
  unfold formatLogEntry.
  destruct (bool_decide _ && bool_decide _ && bool_decide _); [|done].
  run.
  match goal with
  | |- context [dateToString ?d ?u w] =>
      destruct (dateToString_world d u w) as (Ht & He & _);
      destruct (dateToString d u w) as [[s|err] w1]
  end; simpl in *; [|done].
  by destruct (default VUndefined _) as [| | |[]].
Qed.




Lemma slice_0_m1_last s :
  s ≠ "" → ∃ c, s = slice_0_m1 s +:+ String c "".
Proof.
  induction s as [|a s IH]; [done|]. intros _.
  destruct s as [|b s].
  - by exists a.
  - destruct IH as [c Hc]; [done|]. exists c.
    change (String a (String b s)
            = String a (slice_0_m1 (String b s) +:+ String c "")).
    by rewrite <- Hc.
Qed.

(** X20. For a date that is within the range of Date values, and stays
    within it when moved by the zone offset, [dateToString] is the ISO
    string without its last character: of the date itself when
    useCurrentTimezone is given and falsy, of the moved date when it is
    truthy or left out. The world is untouched. *)
Theorem dateToString_drops_last_character t use w :
  let moved := match use with VUndefined => true | _ => truthy use end in
  let t' := if moved then setMinutes t (getMinutes t - getTimezoneOffset t)
            else t in
  in_time_range t → in_time_range t' →
  toISOString t' ≠ "" →
  ∃ s c, dateToString (VDate (Some t)) use w = (Return s, w)
         ∧ toISOString t' = s +:+ String c "".
Proof.
  intros moved t' _ _ Hne.
  destruct (slice_0_m1_last _ Hne) as [c Hc].
  exists (slice_0_m1 (toISOString t')), c. split; [|done].
  unfold dateToString. run. simpl. fold moved. by fold t'.
Qed.

(** X21. [dateToString] reads the clock exactly when the date is
    undefined, and never touches the logger or the sink, whatever it is
    given and whether it returns or throws. *)
Theorem dateToString_reads_clock date use w :
  this (dateToString date use w).2 = this w
  ∧ emitted (dateToString date use w).2 = emitted w
  ∧ reads (dateToString date use w).2
    = match date with VUndefined => S (reads w) | _ => reads w end.
Proof. apply dateToString_world. Qed.

End Formatting.

(** ** Beyond the claims: runs of calls *)

Section Runs.
Context `{H : Host}.

Implicit Types (w : world) (m : method) (ms : list method).

Lemma invoke_add c : invoke c = add (call_message c) (VStr (call_level c)).
Proof. by destruct c. Qed.

Lemma time_this name w :
  ∃ a, this (time name w).2 = set_timeTracking a (this w)
       ∧ emitted (time name w).2 = emitted w.
Proof.
  unfold time, hasOwnProperty, array_set. run. simpl.
  destruct (own (timeTracking (this w)) !! "hasOwnProperty"); simpl.
  { eexists. by rewrite set_timeTracking_id. }
  destruct (bool_decide (name = "length")) eqn:Hl; simpl.
  { eexists. by rewrite set_timeTracking_id. }
  destruct (bool_decide (is_Some (own (timeTracking (this w)) !! name))); simpl.
  { eexists. by rewrite set_timeTracking_id. }
  destruct (bool_decide (name = "__proto__")); simpl; by eexists.
Qed.

(** [timeEnd] leaves the world alone or ends in an [add]. *)
Lemma timeEnd_shape name w :
  (timeEnd name w).2 = w
  ∨ ∃ message, (timeEnd name w).2 = (add message VUndefined (stopped name w)).2.
Proof.
  unfold timeEnd, hasOwnProperty. run. simpl.
  destruct (own (timeTracking (this w)) !! "hasOwnProperty"); simpl; [by left|].
  destruct (bool_decide (name = "length") || bool_decide (is_Some _));
    simpl; [|by left].
  right. fold (stopped name w).
  match goal with
  | |- context [add ?msg VUndefined (stopped name w)] =>
      exists msg; by destruct (add msg VUndefined (stopped name w)) as [[e|err] w']
  end.
Qed.

Lemma dumpToString_world w : (dumpToString w).2 = w.
Proof. by rewrite dumpToString_cat. Qed.

Lemma after_log m w : log (this w) `prefix_of` log (this (after m w)).
Proof.
  destruct m as [msg lvl|c|name|name|logEntry| |filePath|date use]; simpl.
  - destruct (add_this msg lvl w) as [-> _]. simpl. by apply prefix_app_r.
  - rewrite invoke_add.
    destruct (add_this (call_message c) (VStr (call_level c)) w) as [-> _].
    simpl. by apply prefix_app_r.
  - destruct (time_this name w) as (a & -> & _). done.
  - destruct (timeEnd_shape name w) as [->|[msg ->]]; [done|].
    destruct (add_this msg VUndefined (stopped name w)) as [-> _].
    simpl. by apply prefix_app_r.
  - by destruct (formatLogEntry_world logEntry w) as [-> _].
  - by rewrite dumpToString_world.
  - done.
  - by destruct (dateToString_world date use w) as [-> _].
Qed.

(** X12. The log only grows: after any run of calls of any methods, with
    any arguments, returning or throwing, the entries that were in the
    log are still its first entries, unchanged and in the same order. *)
Theorem log_only_grows ms w :
  log (this w) `prefix_of` log (this (after_all ms w)).
Proof.
  revert w. induction ms as [|m ms IH]; intros w; simpl; [done|].
  etrans; [apply after_log|apply IH].
Qed.

Lemma after_shadowed m start w :
  own (timeTracking (this w)) !! "hasOwnProperty" = Some start →
  timeTracking (this (after m w)) = timeTracking (this w).
Proof.
  intros Hh.
  destruct m as [msg lvl|c|name|name|logEntry| |filePath|date use]; simpl.
  - by destruct (add_this msg lvl w) as [-> _].
  - rewrite invoke_add.
    by destruct (add_this (call_message c) (VStr (call_level c)) w) as [-> _].
  - by rewrite (time_shadowed name start).
  - by rewrite (timeEnd_shadowed name start).
  - by destruct (formatLogEntry_world logEntry w) as [-> _].
  - by rewrite dumpToString_world.
  - done.
  - by destruct (dateToString_world date use w) as [-> _].
Qed.

(** X13. A timer named hasOwnProperty disables the timers for good:
    after any run of calls it is still there, the timers are what they
    were, and [time] and [timeEnd] throw a TypeError for every name. *)
Theorem shadowed_for_good ms start w :
  own (timeTracking (this w)) !! "hasOwnProperty" = Some start →
  timeTracking (this (after_all ms w)) = timeTracking (this w)
  ∧ ∀ name, (time name (after_all ms w)).1 = Throw TypeError
            ∧ (timeEnd name (after_all ms w)).1 = Throw TypeError.
Proof.
  intros Hh.
  assert (Hsame : timeTracking (this (after_all ms w)) = timeTracking (this w)).
  { revert w Hh. induction ms as [|m ms IH]; intros w Hh; simpl; [done|].
    rewrite IH; [by eapply after_shadowed|].
    by rewrite (after_shadowed m start). }
  split; [done|]. intros name.
  rewrite (time_shadowed name start), (timeEnd_shadowed name start);
    by rewrite ?Hsame.
Qed.








(** X22. What the constructor sets up: an empty log and no timer; a
    printToConsole and a writeToFile that are the arguments when these
    are booleans and true and false otherwise; the sink given, or one
    that returns; the path given, or, when none is given, the local
    rendering of the current time followed by [.log], the only case in
    which the clock is read. Nothing is printed. *)
Theorem jsLogger_new_defaults pc pf wf lp n :
  let w := fresh pc pf wf lp n in
  log (this w) = []
  ∧ timeTracking (this w) = mkArray ∅ 0
  ∧ printToConsole (this w) = match pc with VData (DBool b) => b | _ => true end
  ∧ printFunction (this w) = match pf with Some f => f | None => λ _, Return tt end
  ∧ writeToFile (this w) = match wf with VData (DBool b) => b | _ => false end
  ∧ logFilePath (this w)
    = match lp with
      | VUndefined => VStr (local_rendering (clock n) +:+ ".log")
      | _ => lp
      end
  ∧ reads w = match lp with VUndefined => S n | _ => n end
  ∧ emitted w = [].
Proof.
  intros w. subst w. unfold fresh, jsLogger_new.
  destruct lp as [| | |[]]; run; simpl; by repeat split.
Qed.

End Runs.

(** ** The sample inputs, continued *)

Section MoreSamples.
#[local] Existing Instance Reference.host.


Lemma add_sink_throws_witness :
  (add (VStr "m") VUndefined Sample.broken_sink).1 = Throw SinkError
  ∧ log (this (add (VStr "m") VUndefined Sample.broken_sink).2)
    = [mkLogEntry (clock 1) (VStr "m") (VStr "debug")]
  ∧ emitted (add (VStr "m") VUndefined Sample.broken_sink).2
    = ["2018-05-01T12:06:10.056 [DEBUG] : m"].
Proof.
  exact (add_sink_throws (VStr "m") VUndefined "debug" SinkError
           Sample.broken_sink eq_refl eq_refl eq_refl).
Defined.

Lemma add_silent_witness :
  add (VStr "m") VFun Sample.silent
  = (Return (mkLogEntry (clock 1) (VStr "m") VFun),
     mkWorld (set_log [mkLogEntry (clock 1) (VStr "m") VFun] (this Sample.silent))
             2 []).
Proof.
  exact (add_silent (VStr "m") VFun Sample.silent eq_refl eq_refl).
Defined.

Lemma add_level_without_text_witness :
  (add (VStr "m") VFun Sample.logger).1 = Throw TypeError
  ∧ log (this (add (VStr "m") VFun Sample.logger).2)
    = [mkLogEntry (clock 1) (VStr "m") VFun]
  ∧ emitted (add (VStr "m") VFun Sample.logger).2 = [].
Proof.
  exact (add_level_without_text (VStr "m") VFun Sample.logger eq_refl eq_refl).
Defined.



Lemma timeEnd_sink_throws_witness :
  (timeEnd "job" (time "job" Sample.broken_sink).2).1 = Throw SinkError
  ∧ own (timeTracking (this (timeEnd "job" (time "job" Sample.broken_sink).2).2))
      !! "job" = None
  ∧ log (this (timeEnd "job" (time "job" Sample.broken_sink).2).2)
    = [mkLogEntry (clock 3) (took "job" (Milli 3006)) (VStr "debug")].
Proof.
  exact (timeEnd_sink_throws "job" (clock 1) SinkError
           (time "job" Sample.broken_sink).2
           eq_refl ltac:(discriminate) eq_refl eq_refl (λ line, eq_refl)).
Defined.


Lemma shadowed_for_good_witness :
  timeTracking (this (after_all Sample.session Sample.shadowed))
    = timeTracking (this Sample.shadowed)
  ∧ ∀ name,
      (time name (after_all Sample.session Sample.shadowed)).1 = Throw TypeError
      ∧ (timeEnd name (after_all Sample.session Sample.shadowed)).1
        = Throw TypeError.
Proof.
  exact (shadowed_for_good Sample.session (clock 1) Sample.shadowed eq_refl).
Defined.





Lemma dateToString_drops_last_character_witness :
  ∃ s c, dateToString (VDate (Some Sample.T)) (VBool false) Sample.logger
           = (Return s, Sample.logger)
         ∧ "2018-05-01T10:06:07.050Z" = s +:+ String c "".
Proof.
  assert (Hne : Reference.toISOString Sample.T ≠ "").
  { intros Heq. vm_compute in Heq. discriminate Heq. }
  exact (dateToString_drops_last_character Sample.T (VBool false) Sample.logger
           ltac:(vm_compute; split; discriminate)
           ltac:(vm_compute; split; discriminate) Hne).
Defined.

End MoreSamples.

(** ** The corrected claims on leveled calls and complete entries *)

Section Corrected.
Context `{H : Host}.

Implicit Types (w : world) (cs : list call).

(** The log after leveled calls, whatever each of them did. *)
Lemma leveled_after_all cs w :
  ∃ es, log (this (after_all (map CallLeveled cs) w)) = log (this w) ++ es
        ∧ Forall2 (λ c e, level e = VStr (call_level c)
                          ∧ message e = call_message c) cs es.
Proof.
  revert w. induction cs as [|c cs IH]; intros w.
  - exists []. simpl. by rewrite app_nil_r.
  - destruct (IH (invoke c w).2) as (es & Hlog & Hall).
    change (after_all (map CallLeveled (c :: cs)) w)
      with (after_all (map CallLeveled cs) (invoke c w).2).
    rewrite Hlog, invoke_add.
    destruct (add_this (call_message c) (VStr (call_level c)) w) as [-> _].
    simpl. eexists (_ :: es). split.
    + by rewrite <- app_assoc.
    + by constructor.
Qed.

(** When every call returns, the world is the same as when their
    outcomes are ignored. *)
Lemma invoke_all_after cs w es w' :
  invoke_all cs w = (Return es, w') →
  w' = after_all (map CallLeveled cs) w.
Proof.
  revert w es. induction cs as [|c cs IH]; intros w es; simpl; run.
  - by intros [= _ <-].
  - destruct (invoke c w) as [[e|err] w1]; simpl; [|done].
    destruct (invoke_all cs w1) as [[es'|err] w2] eqn:Hrest; [|done].
    intros [= _ <-]. by eapply IH.
Qed.

(** C1, as amended. After any leveled calls on a fresh logger, returning
    or throwing, the log has one entry per call, in call order, each
    with the level named by its method and the message it was given.
    When printing is off or the sink returns, every call returns, and
    what the calls return are the entries of the log, in order. *)
Theorem leveled_calls_one_entry_each pc pf wf lp n cs :
  let w0 := fresh pc pf wf lp n in
  (length (log (this (after_all (map CallLeveled cs) w0))) = length cs
   ∧ Forall2 (λ c e, level e = VStr (call_level c) ∧ message e = call_message c)
       cs (log (this (after_all (map CallLeveled cs) w0))))
  ∧ ((pc ≠ VBool false → ∀ f, pf = Some f → ∀ line, f line = Return tt) →
     ∃ es w', invoke_all cs w0 = (Return es, w')
              ∧ w' = after_all (map CallLeveled cs) w0
              ∧ log (this w') = es).
Proof.
  intros w0. subst w0.
  destruct (fresh_this pc pf wf lp n) as [path Hthis].
  split.
  - destruct (leveled_after_all cs (fresh pc pf wf lp n)) as (es & Hlog & Hall).
    rewrite Hthis in Hlog. simpl in Hlog. rewrite Hlog.
    split; [|done]. symmetry. by eapply Forall2_length.
  - intros Hsink.
    destruct (invoke_all_appends cs (fresh pc pf wf lp n))
      as (es & w' & Hrun & Hlog & _).
    { rewrite Hthis. intros Hp line. simpl in *.
      destruct pf as [f|]; [|done]. apply Hsink; [|done].
      intros ->. discriminate Hp. }
    exists es, w'. rewrite Hthis in Hlog. simpl in Hlog.
    repeat split; [done| |done]. by eapply invoke_all_after.
Qed.


End Corrected.

Section CorrectedSamples.
#[local] Existing Instance Reference.host.

(** C1 as first stated fails: on a fresh logger whose sink throws,
    [info] stores its entry but throws instead of returning it. *)
Lemma info_throws_with_the_sink :
  (invoke (Info (VStr "m")) Sample.broken_sink).1 = Throw SinkError
  ∧ log (this Sample.broken_sink) = []
  ∧ log (this (invoke (Info (VStr "m")) Sample.broken_sink).2)
    = [mkLogEntry (clock 1) (VStr "m") (VStr "info")].
Proof. repeat split. Qed.

Lemma leveled_calls_one_entry_each_witness :
  ∃ es w', invoke_all Sample.calls Sample.custom_sink = (Return es, w')
           ∧ w' = after_all (map CallLeveled Sample.calls) Sample.custom_sink
           ∧ log (this w') = es.
Proof.
  exact (proj2 (leveled_calls_one_entry_each VUndefined (Some (λ _, Return tt))
                  VUndefined VUndefined 0 Sample.calls)
               (λ _ f Hf line,
                  match Hf in _ = o
                        return match o with Some g => g line = Return tt | None => True end
                  with eq_refl => eq_refl end)).
Defined.



End CorrectedSamples.
